(** * AddressSelector: state transitions of the address-book widget

    Shallow embedding of [src/components/AddressSelector.tsx].  The
    component's [useState] cells form one record; every handler is a program
    in a small state / exception / trace monad whose trace records the calls
    made to the outside world (the [api] helper, [toast], [console.error],
    [window.confirm] and the two callbacks received as props).

    A handler is run from the state of the render that installed it and runs
    to completion: no other event is interleaved between the request and its
    response.  The props callbacks are recorded as events and return
    normally. *)

From Stdlib Require Import String List Bool Arith Lia.
Import ListNotations.
Open Scope string_scope.
Open Scope list_scope.

(** ** Data model *)

(** [interface Address]: the three members marked [?] are optional. *)
Record Address : Type := mkAddress {
  _id : option string;
  name : string;
  phone : string;
  houseNumber : string;
  area : string;
  city : string;
  state : string;
  pincode : string;
  landmark : option string;
  isDefault : option bool
}.

(** The object literal used for the initial [formData] and for the reset
    after a successful submission: eight empty strings, no [_id], no
    [isDefault]. *)
Definition emptyForm : Address :=
  {| _id := None; name := ""; phone := ""; houseNumber := ""; area := "";
     city := ""; state := ""; pincode := ""; landmark := Some "";
     isDefault := None |}.

(** The six [useState] cells. *)
Record State : Type := mkState {
  addresses : list Address;
  loading : bool;
  showForm : bool;
  selectedAddressId : option string;
  formData : Address;
  submitting : bool
}.

Definition initialState : State :=
  {| addresses := []; loading := true; showForm := false;
     selectedAddressId := None; formData := emptyForm; submitting := false |}.

(** JavaScript truthiness of the values the component tests. *)
Definition truthy_string (s : string) : bool := negb (s =? "").

Definition truthy_opt_string (o : option string) : bool :=
  match o with Some s => truthy_string s | None => false end.

Definition truthy_opt_bool (o : option bool) : bool :=
  match o with Some b => b | None => false end.

(** [x || ''] on an optional string. *)
Definition or_empty (o : option string) : string :=
  match o with
  | Some s => if truthy_string s then s else ""
  | None => ""
  end.

(** ** The outside world *)

(** The value found under [data] in a response body.  Only arrays are told
    apart from the rest, since the component tests [Array.isArray] alone. *)
Inductive JsonValue : Type :=
| JUndefined
| JNull
| JOther
| JArray (l : list Address).

(** The [json] member of the helper's result: nullish, or a value with a
    (possibly missing) [data] member. *)
Inductive Json : Type :=
| JsonNullish
| JsonObject (data : JsonValue).

(** [json?.data] *)
Definition opt_data (j : Json) : JsonValue :=
  match j with
  | JsonNullish => JUndefined
  | JsonObject d => d
  end.

Definition Array_isArray (v : JsonValue) : bool :=
  match v with JArray _ => true | _ => false end.

(** The elements of a value that passed [Array.isArray]. *)
Definition elements (v : JsonValue) : list Address :=
  match v with JArray l => l | _ => [] end.

(** The body of a request: [JSON.stringify(formData)], kept symbolic. *)
Inductive Body : Type :=
| JSON_stringify (a : Address).

Record RequestInit : Type := mkInit {
  method : string;
  body : option Body
}.

(** One call [api(url, init)]; [init] is absent for the list call. *)
Record Request : Type := mkRequest {
  url : string;
  init : option RequestInit
}.

(** What awaiting [api(...)] gives: the pair [{ ok, json }], or a rejection
    that the surrounding [try] catches. *)
Inductive ApiResult : Type :=
| Resolved (ok : bool) (json : Json)
| Rejected (e : string).

Record World : Type := mkWorld {
  api : Request -> ApiResult;
  window_confirm : string -> bool
}.

(** [onAddressSelected] is required; [onAddressCreated] is optional. *)
Record Props : Type := mkProps {
  onAddressCreated : bool
}.

Record Toast : Type := mkToast {
  title : string;
  description : string;
  variant : option string
}.

Inductive Event : Type :=
| EApi (r : Request)
| EToast (t : Toast)
| EConsoleError (msg : string) (e : string)
| EConfirm (msg : string)
| EOnAddressSelected (a : Address)
| EOnAddressCreated.

(** ** The handler monad *)

Inductive Outcome (A : Type) : Type :=
| Normal (a : A)
| Thrown (e : string).
Arguments Normal {A} a.
Arguments Thrown {A} e.

Definition M (A : Type) : Type := State -> Outcome A * State * list Event.

Definition ret {A} (a : A) : M A := fun s => (Normal a, s, []).

Definition bind {A B} (m : M A) (k : A -> M B) : M B :=
  fun s =>
    match m s with
    | (Normal a, s1, t1) =>
        let '(r, s2, t2) := k a s1 in (r, s2, t1 ++ t2)
    | (Thrown e, s1, t1) => (Thrown e, s1, t1)
    end.

Declare Scope handler_scope.
Delimit Scope handler_scope with handler.
Notation "x <- m ;; k" := (bind m (fun x => k))
  (at level 61, m at next level, right associativity) : handler_scope.
Notation "m ;; k" := (bind m (fun _ => k))
  (at level 61, right associativity) : handler_scope.
Open Scope handler_scope.

(** [try { body } catch (e) { handler e }] *)
Definition try_catch {A} (body : M A) (handler : string -> M A) : M A :=
  fun s =>
    match body s with
    | (Thrown e, s1, t1) =>
        let '(r, s2, t2) := handler e s1 in (r, s2, t1 ++ t2)
    | r => r
    end.

(** [... finally { fin }]: [fin] runs on both exits and keeps the outcome of
    the protected block unless it throws itself. *)
Definition finally {A} (m : M A) (fin : M unit) : M A :=
  fun s =>
    let '(r, s1, t1) := m s in
    match fin s1 with
    | (Normal _, s2, t2) => (r, s2, t1 ++ t2)
    | (Thrown e, s2, t2) => (Thrown e, s2, t1 ++ t2)
    end.

Definition emit (e : Event) : M unit := fun s => (Normal tt, s, [e]).

Definition get_state : M State := fun s => (Normal s, s, []).

Definition when (b : bool) (m : M unit) : M unit := if b then m else ret tt.

(** The state setters returned by [useState]. *)
Definition setAddresses (v : list Address) : M unit :=
  fun s => (Normal tt,
            mkState v (loading s) (showForm s) (selectedAddressId s)
                    (formData s) (submitting s), []).

Definition setLoading (v : bool) : M unit :=
  fun s => (Normal tt,
            mkState (addresses s) v (showForm s) (selectedAddressId s)
                    (formData s) (submitting s), []).

Definition setShowForm (v : bool) : M unit :=
  fun s => (Normal tt,
            mkState (addresses s) (loading s) v (selectedAddressId s)
                    (formData s) (submitting s), []).

Definition setSelectedAddressId (v : option string) : M unit :=
  fun s => (Normal tt,
            mkState (addresses s) (loading s) (showForm s) v
                    (formData s) (submitting s), []).

Definition setFormData (v : Address) : M unit :=
  fun s => (Normal tt,
            mkState (addresses s) (loading s) (showForm s)
                    (selectedAddressId s) v (submitting s), []).

Definition setSubmitting (v : bool) : M unit :=
  fun s => (Normal tt,
            mkState (addresses s) (loading s) (showForm s)
                    (selectedAddressId s) (formData s) v, []).

(** Calls that leave the component. *)
Definition await_api (w : World) (r : Request) : M (bool * Json) :=
  fun s =>
    match api w r with
    | Resolved ok json => (Normal (ok, json), s, [EApi r])
    | Rejected e => (Thrown e, s, [EApi r])
    end.

Definition confirm (w : World) (msg : string) : M bool :=
  fun s => (Normal (window_confirm w msg), s, [EConfirm msg]).

Definition toast (t : Toast) : M unit := emit (EToast t).

Definition console_error (msg e : string) : M unit :=
  emit (EConsoleError msg e).

Definition onAddressSelected (a : Address) : M unit :=
  emit (EOnAddressSelected a).

(** ** The handlers *)

Definition listRequest : Request :=
  {| url := "/api/auth/addresses"; init := None |}.

Definition createRequest (fd : Address) : Request :=
  {| url := "/api/auth/addresses";
     init := Some {| method := "POST"; body := Some (JSON_stringify fd) |} |}.

Definition deleteRequest (id : string) : Request :=
  {| url := ("/api/auth/addresses/" ++ id)%string;
     init := Some {| method := "DELETE"; body := None |} |}.

(** [(a: Address) => a.isDefault] as the predicate of [find]. *)
Definition is_default (a : Address) : bool := truthy_opt_bool (isDefault a).

Definition fetchAddresses (w : World) : M unit :=
  finally
    (try_catch
       (setLoading true ;;
        r <- await_api w listRequest ;;
        let '(ok, json) := r in
        when (ok && Array_isArray (opt_data json))
             (let data := elements (opt_data json) in
              setAddresses data ;;
              let defaultAddr := find is_default data in
              match defaultAddr with
              | Some d =>
                  when (truthy_opt_string (_id d))
                       (setSelectedAddressId (_id d) ;;
                        onAddressSelected d)
              | None => ret tt
              end))
       (fun e => console_error "Failed to fetch addresses:" e))
    (setLoading false).

(** The guard at the top of [handleAddAddress]: some required field is
    falsy.  [formData] is the value of the render whose button was clicked;
    so is [selectedAddressId] in [handleDeleteAddress]. *)
Definition missing_required (fd : Address) : bool :=
  negb (truthy_string (name fd)) || negb (truthy_string (phone fd))
  || negb (truthy_string (houseNumber fd)) || negb (truthy_string (area fd))
  || negb (truthy_string (city fd)) || negb (truthy_string (state fd))
  || negb (truthy_string (pincode fd)).

Definition missingFieldsToast : Toast :=
  {| title := "Missing Fields";
     description := "Please fill in all required fields";
     variant := Some "destructive" |}.

Definition addressAddedToast : Toast :=
  {| title := "Address Added";
     description := "Your address has been saved successfully";
     variant := None |}.

Definition addFailedToast : Toast :=
  {| title := "Error";
     description := "Failed to add address";
     variant := Some "destructive" |}.

Definition handleAddAddress (w : World) (p : Props) : M unit :=
  st <- get_state ;;
  if missing_required (formData st) then
    toast missingFieldsToast
  else
    finally
      (try_catch
         (setSubmitting true ;;
          r <- await_api w (createRequest (formData st)) ;;
          let '(ok, json) := r in
          when (ok && Array_isArray (opt_data json))
               (setAddresses (elements (opt_data json)) ;;
                setShowForm false ;;
                setFormData emptyForm ;;
                toast addressAddedToast ;;
                when (onAddressCreated p) (emit EOnAddressCreated)))
         (fun e =>
            console_error "Failed to add address:" e ;;
            toast addFailedToast))
      (setSubmitting false).

Definition addressDeletedToast : Toast :=
  {| title := "Address Deleted";
     description := "Your address has been removed";
     variant := None |}.

Definition deleteFailedToast : Toast :=
  {| title := "Error";
     description := "Failed to delete address";
     variant := Some "destructive" |}.

Definition option_string_eqb (o : option string) (x : string) : bool :=
  match o with Some y => y =? x | None => false end.

Definition deletePrompt : string :=
  "Are you sure you want to delete this address?".

Definition handleDeleteAddress (w : World) (id : string) : M unit :=
  st <- get_state ;;
  c <- confirm w deletePrompt ;;
  if negb c then ret tt
  else
    try_catch
      (r <- await_api w (deleteRequest id) ;;
       let '(ok, json) := r in
       when (ok && Array_isArray (opt_data json))
            (setAddresses (elements (opt_data json)) ;;
             when (option_string_eqb (selectedAddressId st) id)
                  (setSelectedAddressId None) ;;
             toast addressDeletedToast))
      (fun e =>
         console_error "Failed to delete address:" e ;;
         toast deleteFailedToast).

(** The inline [onClick] handlers of the JSX. *)
Definition card_onClick (address : Address) : M unit :=
  setSelectedAddressId (Some (or_empty (_id address))) ;;
  onAddressSelected address.

Definition deleteButton_onClick (w : World) (address : Address) : M unit :=
  handleDeleteAddress w (or_empty (_id address)).

Definition cancel_onClick : M unit := setShowForm false.

Definition addNew_onClick : M unit := setShowForm true.

Definition save_onClick (w : World) (p : Props) : M unit :=
  handleAddAddress w p.

(** ** Observations on a run *)

Definition final_state {A} (r : Outcome A * State * list Event) : State :=
  snd (fst r).

Definition trace_of {A} (r : Outcome A * State * list Event) : list Event :=
  snd r.

Definition api_calls (t : list Event) : list Request :=
  flat_map (fun e => match e with EApi r => [r] | _ => [] end) t.

Definition toasts (t : list Event) : list Toast :=
  flat_map (fun e => match e with EToast x => [x] | _ => [] end) t.

Definition selected_calls (t : list Event) : list Address :=
  flat_map (fun e => match e with EOnAddressSelected a => [a] | _ => [] end) t.

Definition created_calls (t : list Event) : nat :=
  length (filter (fun e => match e with EOnAddressCreated => true | _ => false end) t).

(** ** Field edits, mount and render *)

(** The eight inputs of the creation form. *)
Inductive Field : Type :=
| FName | FPhone | FHouseNumber | FArea | FCity | FState | FPincode
| FLandmark.

(** The [onChange] of the input bound to field [f]:
    [setFormData({ ...formData, f: e.target.value })]. *)
Definition input_onChange (f : Field) (value : string) : M unit :=
  st <- get_state ;;
  let fd := formData st in
  setFormData
    match f with
    | FName =>
        mkAddress (_id fd) value (phone fd) (houseNumber fd) (area fd)
                  (city fd) (state fd) (pincode fd) (landmark fd)
                  (isDefault fd)
    | FPhone =>
        mkAddress (_id fd) (name fd) value (houseNumber fd) (area fd)
                  (city fd) (state fd) (pincode fd) (landmark fd)
                  (isDefault fd)
    | FHouseNumber =>
        mkAddress (_id fd) (name fd) (phone fd) value (area fd)
                  (city fd) (state fd) (pincode fd) (landmark fd)
                  (isDefault fd)
    | FArea =>
        mkAddress (_id fd) (name fd) (phone fd) (houseNumber fd) value
                  (city fd) (state fd) (pincode fd) (landmark fd)
                  (isDefault fd)
    | FCity =>
        mkAddress (_id fd) (name fd) (phone fd) (houseNumber fd) (area fd)
                  value (state fd) (pincode fd) (landmark fd)
                  (isDefault fd)
    | FState =>
        mkAddress (_id fd) (name fd) (phone fd) (houseNumber fd) (area fd)
                  (city fd) value (pincode fd) (landmark fd)
                  (isDefault fd)
    | FPincode =>
        mkAddress (_id fd) (name fd) (phone fd) (houseNumber fd) (area fd)
                  (city fd) (state fd) value (landmark fd)
                  (isDefault fd)
    | FLandmark =>
        mkAddress (_id fd) (name fd) (phone fd) (houseNumber fd) (area fd)
                  (city fd) (state fd) (pincode fd) (Some value)
                  (isDefault fd)
    end.

(** [value={formData.f}] of the input bound to field [f]. *)
Definition input_value (f : Field) (fd : Address) : option string :=
  match f with
  | FName => Some (name fd)
  | FPhone => Some (phone fd)
  | FHouseNumber => Some (houseNumber fd)
  | FArea => Some (area fd)
  | FCity => Some (city fd)
  | FState => Some (state fd)
  | FPincode => Some (pincode fd)
  | FLandmark => landmark fd
  end.

Definition Field_eqb (f g : Field) : bool :=
  match f, g with
  | FName, FName | FPhone, FPhone | FHouseNumber, FHouseNumber
  | FArea, FArea | FCity, FCity | FState, FState | FPincode, FPincode
  | FLandmark, FLandmark => true
  | _, _ => false
  end.

(** The fields tested by the guard of [handleAddAddress]. *)
Definition required (f : Field) : bool :=
  match f with FLandmark => false | _ => true end.

(** [useEffect(() => { fetchAddresses(); }, [])]: one load, from the initial
    values of the state cells. *)
Definition mount (w : World) : Outcome unit * State * list Event :=
  fetchAddresses w initialState.

(** [selectedAddressId === address._id], between a [string | null] and a
    [string | undefined]: [null] and [undefined] are not strictly equal. *)
Definition strict_eq_id (sel id : option string) : bool :=
  match sel, id with
  | Some x, Some y => x =? y
  | _, _ => false
  end.

(** What one card shows. *)
Record CardView : Type := mkCardView {
  card_key : option string;
  card_className : string;
  card_name : string;
  card_check : bool;
  card_street : string;
  card_town : string;
  card_landmark : option string;
  card_phone : string
}.

Definition cardView (s : State) (address : Address) : CardView :=
  {| card_key := _id address;
     card_className :=
       ("p-4 cursor-pointer transition-all " ++
        (if strict_eq_id (selectedAddressId s) (_id address)
         then "border-primary bg-primary/5"
         else "hover:border-primary"))%string;
     card_name := name address;
     card_check := strict_eq_id (selectedAddressId s) (_id address);
     card_street := (houseNumber address ++ ", " ++ area address)%string;
     card_town :=
       (city address ++ ", " ++ state address ++ " " ++ pincode address)%string;
     card_landmark :=
       match landmark address with
       | Some l => if truthy_string l then Some ("Near: " ++ l)%string else None
       | None => None
       end;
     card_phone := phone address |}.

(** What the creation form shows: the draft and the Save button. *)
Record FormView : Type := mkFormView {
  form_values : Address;
  save_disabled : bool;
  save_label : string
}.

Definition formView (s : State) : FormView :=
  {| form_values := formData s;
     save_disabled := submitting s;
     save_label := if submitting s then "Saving..." else "Save Address" |}.

(** The rendered tree: the skeleton blocks while loading; otherwise the card
    list (absent when [addresses] is empty) followed by the form, or by the
    "Add New Address" button when [form] is absent. *)
Inductive View : Type :=
| Skeletons (n : nat)
| Screen (cards : option (list CardView)) (form : option FormView).

Definition render (s : State) : View :=
  if loading s then Skeletons 2
  else
    Screen (if (0 <? length (addresses s))%nat
            then Some (map (cardView s) (addresses s))
            else None)
           (if showForm s then Some (formView s) else None).

(** The cards of a view, and those drawn as selected. *)
Definition cards_of (v : View) : list CardView :=
  match v with
  | Screen (Some cs) _ => cs
  | _ => []
  end.

Definition highlighted (v : View) : list CardView :=
  filter card_check (cards_of v).

(** ** Sample inputs *)

Definition filledForm : Address :=
  {| _id := None; name := "Asha Rao"; phone := "9999999999";
     houseNumber := "12"; area := "MG Road"; city := "Pune"; state := "MH";
     pincode := "411001"; landmark := Some ""; isDefault := None |}.

Definition home : Address :=
  {| _id := Some "a1"; name := "Asha Rao"; phone := "9999999999";
     houseNumber := "12"; area := "MG Road"; city := "Pune"; state := "MH";
     pincode := "411001"; landmark := None; isDefault := Some true |}.

Definition office : Address :=
  {| _id := Some "a2"; name := "Asha Rao"; phone := "9999999999";
     houseNumber := "7"; area := "FC Road"; city := "Pune"; state := "MH";
     pincode := "411004"; landmark := Some "Near park"; isDefault := None |}.

(** A default-flagged element that carries no [_id]. *)
Definition draftDefault : Address :=
  {| _id := None; name := "Asha Rao"; phone := "9999999999";
     houseNumber := "3"; area := "JM Road"; city := "Pune"; state := "MH";
     pincode := "411005"; landmark := None; isDefault := Some true |}.

(** A world whose helper answers every request with [r] and whose
    confirmation prompt is answered with [c]. *)
Definition constWorld (r : ApiResult) (c : bool) : World :=
  {| api := fun _ => r; window_confirm := fun _ => c |}.

Definition formOpen : State :=
  {| addresses := [office]; loading := false; showForm := true;
     selectedAddressId := Some "a2"; formData := filledForm;
     submitting := false |}.

Definition listShown : State :=
  {| addresses := [home; office]; loading := false; showForm := false;
     selectedAddressId := Some "a1"; formData := emptyForm;
     submitting := false |}.

(** The form with everything typed except the pincode. *)
Definition pincodeMissing : State :=
  {| addresses := [office]; loading := false; showForm := true;
     selectedAddressId := Some "a2";
     formData := mkAddress None "Asha Rao" "9999999999" "12" "MG Road"
                           "Pune" "MH" "" (Some "Near park") None;
     submitting := false |}.

(** A list whose only default-flagged element has no [_id]. *)
Definition idlessList : list Address := [office; draftDefault].

(** A list shown with nothing selected, one card of which has no [_id]. *)
Definition idlessShown : State :=
  {| addresses := idlessList; loading := false; showForm := false;
     selectedAddressId := None; formData := emptyForm;
     submitting := false |}.

(** ** Vocabulary of the specification *)

(** "At least one of the seven required fields is the empty string". *)
Definition some_required_empty (fd : Address) : Prop :=
  name fd = "" \/ phone fd = "" \/ houseNumber fd = "" \/ area fd = ""
  \/ city fd = "" \/ state fd = "" \/ pincode fd = "".

(** "All seven required fields non-empty". *)
Definition all_required_filled (fd : Address) : Prop :=
  name fd <> "" /\ phone fd <> "" /\ houseNumber fd <> "" /\ area fd <> ""
  /\ city fd <> "" /\ state fd <> "" /\ pincode fd <> "".

(** "The network call fails or the server responds non-ok". *)
Definition call_failed (r : ApiResult) : Prop :=
  match r with
  | Rejected _ => True
  | Resolved ok _ => ok = false
  end.

(** "The response is ok but malformed: data missing or not a list". *)
Definition ok_malformed (r : ApiResult) : Prop :=
  match r with
  | Resolved true json => Array_isArray (opt_data json) = false
  | _ => False
  end.

(** "Exactly one element has isDefault = true, namely [a]". *)
Definition only_default (l : list Address) (a : Address) : Prop :=
  filter is_default l = [a].

(** "No element has the flag". *)
Definition no_default (l : list Address) : Prop :=
  filter is_default l = [].

(** "addresses, selectedAddressId, showForm and formData are unchanged". *)
Definition same_content (s s' : State) : Prop :=
  addresses s' = addresses s /\
  selectedAddressId s' = selectedAddressId s /\
  showForm s' = showForm s /\
  formData s' = formData s.

(** "No notification and no callback occurs". *)
Definition no_effects (t : list Event) : Prop :=
  toasts t = [] /\ selected_calls t = [] /\ created_calls t = 0.

(** The selection, when set, is the id of a listed address. *)
Definition selection_valid (s : State) : Prop :=
  forall i, selectedAddressId s = Some i ->
            exists a, In a (addresses s) /\ _id a = Some i.

(** The state after typing [v] into the input of field [f]. *)
Definition typed (f : Field) (v : string) (s : State) : State :=
  final_state (input_onChange f v s).

(** The state with [submitting] cleared, as the [finally] block leaves it. *)
Definition submitting_cleared (s : State) : State :=
  mkState (addresses s) (loading s) (showForm s) (selectedAddressId s)
          (formData s) false.

Definition loading_cleared (s : State) : State :=
  mkState (addresses s) false (showForm s) (selectedAddressId s)
          (formData s) (submitting s).

(** ** Truthiness and the validation guard *)

Lemma truthy_string_false (x : string) : truthy_string x = false <-> x = "".
Proof.
  unfold truthy_string. destruct (String.eqb_spec x ""); simpl; split;
    congruence.
Qed.

Lemma truthy_string_true (x : string) : truthy_string x = true <-> x <> "".
Proof.
  unfold truthy_string. destruct (String.eqb_spec x ""); simpl; split;
    congruence.
Qed.

Lemma missing_required_true (fd : Address) :
  missing_required fd = true <-> some_required_empty fd.
Proof.
  unfold missing_required, some_required_empty.
  rewrite !orb_true_iff, !negb_true_iff, !truthy_string_false. tauto.
Qed.

Lemma missing_required_false (fd : Address) :
  missing_required fd = false <-> all_required_filled fd.
Proof.
  unfold missing_required, all_required_filled.
  rewrite !orb_false_iff, !negb_false_iff, !truthy_string_true. tauto.
Qed.

(** ** Run equations of [handleAddAddress] *)

Ltac unfold_monad :=
  cbv [bind ret try_catch finally emit get_state when toast console_error
       onAddressSelected confirm await_api setAddresses setLoading
       setShowForm setSelectedAddressId setFormData setSubmitting].

Lemma handleAddAddress_invalid w p s :
  missing_required (formData s) = true ->
  handleAddAddress w p s = (Normal tt, s, [EToast missingFieldsToast]).
Proof.
  intros H. unfold handleAddAddress, bind at 1, get_state.
  rewrite H. reflexivity.
Qed.

Lemma handleAddAddress_rejected w p s e :
  missing_required (formData s) = false ->
  api w (createRequest (formData s)) = Rejected e ->
  handleAddAddress w p s =
    (Normal tt, submitting_cleared s,
     [EApi (createRequest (formData s));
      EConsoleError "Failed to add address:" e;
      EToast addFailedToast]).
Proof.
  intros H Hr. unfold handleAddAddress, bind at 1, get_state.
  rewrite H. unfold_monad. simpl. rewrite Hr. reflexivity.
Qed.

Lemma handleAddAddress_skipped w p s ok json :
  missing_required (formData s) = false ->
  api w (createRequest (formData s)) = Resolved ok json ->
  ok && Array_isArray (opt_data json) = false ->
  handleAddAddress w p s =
    (Normal tt, submitting_cleared s, [EApi (createRequest (formData s))]).
Proof.
  intros H Hr Hg. unfold handleAddAddress, bind at 1, get_state.
  rewrite H. unfold_monad. simpl. rewrite Hr, Hg. reflexivity.
Qed.

Lemma handleAddAddress_accepted w p s json data :
  missing_required (formData s) = false ->
  api w (createRequest (formData s)) = Resolved true json ->
  opt_data json = JArray data ->
  handleAddAddress w p s =
    (Normal tt,
     mkState data (loading s) false (selectedAddressId s) emptyForm false,
     [EApi (createRequest (formData s)); EToast addressAddedToast]
       ++ (if onAddressCreated p then [EOnAddressCreated] else [])).
Proof.
  intros H Hr Hd. unfold handleAddAddress, bind at 1, get_state.
  rewrite H. unfold_monad. simpl. rewrite Hr, Hd. simpl.
  destruct (onAddressCreated p); reflexivity.
Qed.

(** ** Run equations of [fetchAddresses] *)

Lemma fetchAddresses_rejected w s e :
  api w listRequest = Rejected e ->
  fetchAddresses w s =
    (Normal tt, loading_cleared s,
     [EApi listRequest; EConsoleError "Failed to fetch addresses:" e]).
Proof.
  intros Hr. unfold fetchAddresses. unfold_monad. simpl.
  rewrite Hr. reflexivity.
Qed.

Lemma fetchAddresses_skipped w s ok json :
  api w listRequest = Resolved ok json ->
  ok && Array_isArray (opt_data json) = false ->
  fetchAddresses w s = (Normal tt, loading_cleared s, [EApi listRequest]).
Proof.
  intros Hr Hg. unfold fetchAddresses. unfold_monad. simpl.
  rewrite Hr, Hg. reflexivity.
Qed.

Lemma fetchAddresses_selects w s json data d :
  api w listRequest = Resolved true json ->
  opt_data json = JArray data ->
  find is_default data = Some d ->
  truthy_opt_string (_id d) = true ->
  fetchAddresses w s =
    (Normal tt,
     mkState data false (showForm s) (_id d) (formData s) (submitting s),
     [EApi listRequest; EOnAddressSelected d]).
Proof.
  intros Hr Hd Hf Ht. unfold fetchAddresses. unfold_monad. simpl.
  rewrite Hr, Hd. simpl. rewrite Hf, Ht. reflexivity.
Qed.

Lemma fetchAddresses_no_flag w s json data :
  api w listRequest = Resolved true json ->
  opt_data json = JArray data ->
  find is_default data = None ->
  fetchAddresses w s =
    (Normal tt,
     mkState data false (showForm s) (selectedAddressId s) (formData s)
             (submitting s),
     [EApi listRequest]).
Proof.
  intros Hr Hd Hf. unfold fetchAddresses. unfold_monad. simpl.
  rewrite Hr, Hd. simpl. rewrite Hf. reflexivity.
Qed.

Lemma fetchAddresses_falsy_id w s json data d :
  api w listRequest = Resolved true json ->
  opt_data json = JArray data ->
  find is_default data = Some d ->
  truthy_opt_string (_id d) = false ->
  fetchAddresses w s =
    (Normal tt,
     mkState data false (showForm s) (selectedAddressId s) (formData s)
             (submitting s),
     [EApi listRequest]).
Proof.
  intros Hr Hd Hf Ht. unfold fetchAddresses. unfold_monad. simpl.
  rewrite Hr, Hd. simpl. rewrite Hf, Ht. reflexivity.
Qed.

(** [find] returns the only element that passes the test, and nothing when
    none passes. *)
Lemma find_only {A} (f : A -> bool) (l : list A) (a : A) :
  filter f l = [a] -> find f l = Some a.
Proof.
  induction l as [|x l IH]; simpl; [discriminate|].
  destruct (f x); intros H.
  - now inversion H.
  - now apply IH.
Qed.

Lemma find_none_of {A} (f : A -> bool) (l : list A) :
  filter f l = [] -> find f l = None.
Proof.
  induction l as [|x l IH]; simpl; [reflexivity|].
  destruct (f x); [discriminate | exact IH].
Qed.

(** ** Run equations of [handleDeleteAddress] *)

Lemma handleDeleteAddress_declined w id s :
  window_confirm w deletePrompt = false ->
  handleDeleteAddress w id s = (Normal tt, s, [EConfirm deletePrompt]).
Proof.
  intros Hc. unfold handleDeleteAddress. unfold_monad. simpl.
  rewrite Hc. reflexivity.
Qed.

Lemma handleDeleteAddress_rejected w id s e :
  window_confirm w deletePrompt = true ->
  api w (deleteRequest id) = Rejected e ->
  handleDeleteAddress w id s =
    (Normal tt, s,
     [EConfirm deletePrompt; EApi (deleteRequest id);
      EConsoleError "Failed to delete address:" e;
      EToast deleteFailedToast]).
Proof.
  intros Hc Hr. unfold handleDeleteAddress. unfold_monad. simpl.
  rewrite Hc. simpl. rewrite Hr. reflexivity.
Qed.

Lemma handleDeleteAddress_skipped w id s ok json :
  window_confirm w deletePrompt = true ->
  api w (deleteRequest id) = Resolved ok json ->
  ok && Array_isArray (opt_data json) = false ->
  handleDeleteAddress w id s =
    (Normal tt, s, [EConfirm deletePrompt; EApi (deleteRequest id)]).
Proof.
  intros Hc Hr Hg. unfold handleDeleteAddress. unfold_monad. simpl.
  rewrite Hc. simpl. rewrite Hr, Hg. reflexivity.
Qed.

Lemma handleDeleteAddress_accepted w id s json data :
  window_confirm w deletePrompt = true ->
  api w (deleteRequest id) = Resolved true json ->
  opt_data json = JArray data ->
  handleDeleteAddress w id s =
    (Normal tt,
     mkState data (loading s) (showForm s)
             (if option_string_eqb (selectedAddressId s) id then None
              else selectedAddressId s)
             (formData s) (submitting s),
     [EConfirm deletePrompt; EApi (deleteRequest id);
      EToast addressDeletedToast]).
Proof.
  intros Hc Hr Hd. unfold handleDeleteAddress. unfold_monad. simpl.
  rewrite Hc. simpl. rewrite Hr, Hd. simpl.
  destruct (option_string_eqb (selectedAddressId s) id); reflexivity.
Qed.

Lemma option_string_eqb_true (o : option string) (x : string) :
  option_string_eqb o x = true <-> o = Some x.
Proof.
  destruct o as [y|]; simpl.
  - rewrite String.eqb_eq. split; congruence.
  - split; discriminate.
Qed.

(** ** Creating an address *)

(** C1, as stated, fails: with every required field filled and a non-ok
    response, [handleAddAddress] shows no notification at all. *)
Lemma handleAddAddress_non_ok_is_silent :
  all_required_filled (formData formOpen) /\
  call_failed (api (constWorld (Resolved false JsonNullish) true)
                   (createRequest (formData formOpen))) /\
  toasts (trace_of (handleAddAddress
                      (constWorld (Resolved false JsonNullish) true)
                      (mkProps true) formOpen)) = [].
Proof.
  split; [|split].
  - repeat split; discriminate.
  - reflexivity.
  - reflexivity.
Qed.

(** C1 (amended): for every create submission that passes local validation,
    the generic error notification is shown exactly when the call to the
    helper throws; a response that resolves with [ok = false] produces no
    notification. *)
Theorem handleAddAddress_error_toast_only_when_thrown w p s :
  all_required_filled (formData s) ->
  (forall e, api w (createRequest (formData s)) = Rejected e ->
     toasts (trace_of (handleAddAddress w p s)) = [addFailedToast]) /\
  (forall json, api w (createRequest (formData s)) = Resolved false json ->
     toasts (trace_of (handleAddAddress w p s)) = []).
Proof.
  intros Hv. apply missing_required_false in Hv. split.
  - intros e Hr. now rewrite (handleAddAddress_rejected w p s e Hv Hr).
  - intros json Hr.
    now rewrite (handleAddAddress_skipped w p s false json Hv Hr eq_refl).
Qed.

Lemma handleAddAddress_error_toast_only_when_thrown_witness :
  toasts (trace_of (handleAddAddress (constWorld (Rejected "offline") true)
                                     (mkProps true) formOpen))
    = [addFailedToast] /\
  toasts (trace_of (handleAddAddress
                      (constWorld (Resolved false JsonNullish) true)
                      (mkProps true) formOpen)) = [].
Proof.
  split.
  - apply (handleAddAddress_error_toast_only_when_thrown
             (constWorld (Rejected "offline") true) (mkProps true) formOpen)
      with (e := "offline").
    + repeat split; discriminate.
    + reflexivity.
  - apply (handleAddAddress_error_toast_only_when_thrown
             (constWorld (Resolved false JsonNullish) true) (mkProps true)
             formOpen) with (json := JsonNullish).
    + repeat split; discriminate.
    + reflexivity.
Defined.

(** C2: a create submission that passes local validation and whose call
    fails (non-ok response or thrown error) leaves [addresses] and
    [formData] as they were before the submission, and [showForm] true. *)
Theorem handleAddAddress_failure_keeps_draft w p s :
  all_required_filled (formData s) ->
  showForm s = true ->
  call_failed (api w (createRequest (formData s))) ->
  addresses (final_state (handleAddAddress w p s)) = addresses s /\
  formData (final_state (handleAddAddress w p s)) = formData s /\
  showForm (final_state (handleAddAddress w p s)) = true.
Proof.
  intros Hv Hshow Hf. apply missing_required_false in Hv.
  destruct (api w (createRequest (formData s))) as [ok json|e] eqn:Hr.
  - simpl in Hf. subst ok.
    rewrite (handleAddAddress_skipped w p s false json Hv Hr eq_refl).
    simpl. auto.
  - rewrite (handleAddAddress_rejected w p s e Hv Hr). simpl. auto.
Qed.

Lemma handleAddAddress_failure_keeps_draft_witness :
  addresses (final_state (handleAddAddress
                            (constWorld (Resolved false JsonNullish) true)
                            (mkProps true) formOpen)) = [office] /\
  formData (final_state (handleAddAddress
                           (constWorld (Resolved false JsonNullish) true)
                           (mkProps true) formOpen)) = filledForm /\
  showForm (final_state (handleAddAddress
                           (constWorld (Resolved false JsonNullish) true)
                           (mkProps true) formOpen)) = true.
Proof.
  apply (handleAddAddress_failure_keeps_draft
           (constWorld (Resolved false JsonNullish) true) (mkProps true)
           formOpen).
  - repeat split; discriminate.
  - reflexivity.
  - reflexivity.
Defined.

(** A submission that passes the guard calls the helper exactly once,
    whatever the helper answers. *)
Lemma handleAddAddress_one_request w p s :
  missing_required (formData s) = false ->
  api_calls (trace_of (handleAddAddress w p s))
    = [createRequest (formData s)].
Proof.
  intros Hv.
  destruct (api w (createRequest (formData s))) as [ok json|e] eqn:Hr.
  - destruct (ok && Array_isArray (opt_data json)) eqn:Hg.
    + apply andb_true_iff in Hg. destruct Hg as [-> Ha].
      destruct (opt_data json) as [| | |data] eqn:Hd; try discriminate.
      rewrite (handleAddAddress_accepted w p s json data Hv Hr Hd).
      simpl. now destruct (onAddressCreated p).
    + now rewrite (handleAddAddress_skipped w p s ok json Hv Hr Hg).
  - now rewrite (handleAddAddress_rejected w p s e Hv Hr).
Qed.

(** C3: when at least one of the seven required fields of [formData] is the
    empty string, the submission makes no network call, shows the warning
    notification and leaves the whole component state unchanged; when the
    seven are filled the request is issued whatever [landmark] holds, empty
    or absent included. *)
Theorem handleAddAddress_validation w p s :
  (some_required_empty (formData s) ->
     api_calls (trace_of (handleAddAddress w p s)) = [] /\
     toasts (trace_of (handleAddAddress w p s)) = [missingFieldsToast] /\
     final_state (handleAddAddress w p s) = s) /\
  (all_required_filled (formData s) ->
     (landmark (formData s) = Some "" \/ landmark (formData s) = None) ->
     api_calls (trace_of (handleAddAddress w p s))
       = [createRequest (formData s)]).
Proof.
  split.
  - intros He. apply missing_required_true in He.
    rewrite (handleAddAddress_invalid w p s He). simpl. auto.
  - intros Hv _. apply missing_required_false in Hv.
    now apply handleAddAddress_one_request.
Qed.

Lemma handleAddAddress_validation_witness :
  (api_calls (trace_of (handleAddAddress (constWorld (Resolved true JsonNullish) true)
                                         (mkProps true) pincodeMissing)) = [] /\
   toasts (trace_of (handleAddAddress (constWorld (Resolved true JsonNullish) true)
                                      (mkProps true) pincodeMissing))
     = [missingFieldsToast] /\
   final_state (handleAddAddress (constWorld (Resolved true JsonNullish) true)
                                 (mkProps true) pincodeMissing)
     = pincodeMissing) /\
  api_calls (trace_of (handleAddAddress (constWorld (Resolved true JsonNullish) true)
                                        (mkProps true) formOpen))
    = [createRequest filledForm].
Proof.
  split.
  - apply (handleAddAddress_validation
             (constWorld (Resolved true JsonNullish) true) (mkProps true)
             pincodeMissing).
    unfold some_required_empty. simpl. tauto.
  - apply (handleAddAddress_validation
             (constWorld (Resolved true JsonNullish) true) (mkProps true)
             formOpen).
    + repeat split; discriminate.
    + left. reflexivity.
Defined.

(** C4: with the seven required fields filled, the submission issues exactly
    one request, a POST carrying the serialized [formData]; when the response
    is ok and its [data] is a list, [addresses] becomes that list (hence has
    its length), [showForm] becomes false, [formData] is reset to the
    all-empty draft, the success notification is shown, and
    [onAddressCreated] is invoked once when supplied (and not otherwise). *)
Theorem handleAddAddress_success w p s :
  all_required_filled (formData s) ->
  api_calls (trace_of (handleAddAddress w p s))
    = [mkRequest "/api/auth/addresses"
                 (Some (mkInit "POST" (Some (JSON_stringify (formData s)))))] /\
  (forall json data,
     api w (createRequest (formData s)) = Resolved true json ->
     opt_data json = JArray data ->
     addresses (final_state (handleAddAddress w p s)) = data /\
     length (addresses (final_state (handleAddAddress w p s))) = length data /\
     showForm (final_state (handleAddAddress w p s)) = false /\
     formData (final_state (handleAddAddress w p s))
       = mkAddress None "" "" "" "" "" "" "" (Some "") None /\
     toasts (trace_of (handleAddAddress w p s)) = [addressAddedToast] /\
     created_calls (trace_of (handleAddAddress w p s))
       = if onAddressCreated p then 1 else 0).
Proof.
  intros Hv. apply missing_required_false in Hv. split.
  - now apply handleAddAddress_one_request.
  - intros json data Hr Hd.
    rewrite (handleAddAddress_accepted w p s json data Hv Hr Hd).
    simpl. destruct (onAddressCreated p); simpl; auto 10.
Qed.

Lemma handleAddAddress_success_witness :
  api_calls (trace_of (handleAddAddress
                         (constWorld (Resolved true (JsonObject (JArray [office; home]))) true)
                         (mkProps true) formOpen))
    = [mkRequest "/api/auth/addresses"
                 (Some (mkInit "POST" (Some (JSON_stringify filledForm))))] /\
  final_state (handleAddAddress
                 (constWorld (Resolved true (JsonObject (JArray [office; home]))) true)
                 (mkProps true) formOpen)
    = mkState [office; home] false false (Some "a2") emptyForm false /\
  created_calls (trace_of (handleAddAddress
                             (constWorld (Resolved true (JsonObject (JArray [office; home]))) true)
                             (mkProps true) formOpen)) = 1.
Proof.
  destruct (handleAddAddress_success
              (constWorld (Resolved true (JsonObject (JArray [office; home]))) true)
              (mkProps true) formOpen) as [Hcall Hok].
  - repeat split; discriminate.
  - destruct (Hok (JsonObject (JArray [office; home])) [office; home]
                  eq_refl eq_refl) as (_ & _ & _ & _ & _ & Hcb).
    split; [exact Hcall | split; [reflexivity | exact Hcb]].
Defined.

(** ** Loading the list *)

(** C5, as stated, fails: the loaded list has exactly one default-flagged
    element, yet the callback is not called and nothing is selected, because
    that element has no [_id]. *)
Lemma fetchAddresses_flagged_without_id_not_selected :
  only_default idlessList draftDefault /\
  selected_calls (trace_of (fetchAddresses
                              (constWorld (Resolved true (JsonObject (JArray idlessList))) true)
                              initialState)) = [] /\
  selectedAddressId (final_state (fetchAddresses
                                    (constWorld (Resolved true (JsonObject (JArray idlessList))) true)
                                    initialState)) = None.
Proof. repeat split. Qed.

(** C5 (amended): for every successfully loaded list, [addresses] becomes
    that list; if exactly one element has [isDefault = true] and that element
    has a non-empty [_id], that id becomes [selectedAddressId] and
    [onAddressSelected] is called exactly once, with that element; if no
    element has the flag, [selectedAddressId] is left as it was (unset after
    mount) and the callback is not called. *)
Theorem fetchAddresses_default_selection w s json data :
  api w listRequest = Resolved true json ->
  opt_data json = JArray data ->
  addresses (final_state (fetchAddresses w s)) = data /\
  (forall a i,
     only_default data a -> _id a = Some i -> i <> "" ->
     selectedAddressId (final_state (fetchAddresses w s)) = Some i /\
     selected_calls (trace_of (fetchAddresses w s)) = [a]) /\
  (no_default data ->
     selectedAddressId (final_state (fetchAddresses w s))
       = selectedAddressId s /\
     selected_calls (trace_of (fetchAddresses w s)) = []).
Proof.
  intros Hr Hd. split; [|split].
  - destruct (find is_default data) as [d|] eqn:Hf.
    + destruct (truthy_opt_string (_id d)) eqn:Ht.
      * now rewrite (fetchAddresses_selects w s json data d Hr Hd Hf Ht).
      * now rewrite (fetchAddresses_falsy_id w s json data d Hr Hd Hf Ht).
    + now rewrite (fetchAddresses_no_flag w s json data Hr Hd Hf).
  - intros a i Ha Hi Hne. apply find_only in Ha.
    assert (Ht : truthy_opt_string (_id a) = true).
    { rewrite Hi. simpl. now apply truthy_string_true. }
    rewrite (fetchAddresses_selects w s json data a Hr Hd Ha Ht).
    simpl. auto.
  - intros Hn. apply find_none_of in Hn.
    rewrite (fetchAddresses_no_flag w s json data Hr Hd Hn). simpl. auto.
Qed.

Lemma fetchAddresses_default_selection_witness :
  (selectedAddressId (final_state (fetchAddresses
                                     (constWorld (Resolved true (JsonObject (JArray [office; home]))) true)
                                     initialState)) = Some "a1" /\
   selected_calls (trace_of (fetchAddresses
                               (constWorld (Resolved true (JsonObject (JArray [office; home]))) true)
                               initialState)) = [home]) /\
  (selectedAddressId (final_state (fetchAddresses
                                     (constWorld (Resolved true (JsonObject (JArray [office]))) true)
                                     initialState)) = None /\
   selected_calls (trace_of (fetchAddresses
                               (constWorld (Resolved true (JsonObject (JArray [office]))) true)
                               initialState)) = []).
Proof.
  split.
  - destruct (fetchAddresses_default_selection
                (constWorld (Resolved true (JsonObject (JArray [office; home]))) true)
                initialState (JsonObject (JArray [office; home]))
                [office; home] eq_refl eq_refl) as (_ & Hsel & _).
    apply (Hsel home "a1"); [reflexivity | reflexivity | discriminate].
  - destruct (fetchAddresses_default_selection
                (constWorld (Resolved true (JsonObject (JArray [office]))) true)
                initialState (JsonObject (JArray [office]))
                [office] eq_refl eq_refl) as (_ & _ & Hnone).
    apply Hnone. reflexivity.
Defined.

(** C10: during load, when the first default-flagged element has no [_id],
    no selection is made and [onAddressSelected] is not called although a
    flagged element exists; whenever the callback is called during load, its
    argument is flagged and has an id, which is the one selected. *)
Theorem fetchAddresses_default_needs_id w s json data :
  api w listRequest = Resolved true json ->
  opt_data json = JArray data ->
  (forall d,
     find is_default data = Some d -> _id d = None ->
     selectedAddressId (final_state (fetchAddresses w s))
       = selectedAddressId s /\
     selected_calls (trace_of (fetchAddresses w s)) = []) /\
  (forall a,
     In a (selected_calls (trace_of (fetchAddresses w s))) ->
     is_default a = true /\
     exists i, _id a = Some i /\
               selectedAddressId (final_state (fetchAddresses w s)) = Some i).
Proof.
  intros Hr Hd. split.
  - intros d Hf Hid.
    assert (Ht : truthy_opt_string (_id d) = false) by now rewrite Hid.
    rewrite (fetchAddresses_falsy_id w s json data d Hr Hd Hf Ht).
    simpl. auto.
  - intros a. destruct (find is_default data) as [d|] eqn:Hf.
    + destruct (truthy_opt_string (_id d)) eqn:Ht.
      * rewrite (fetchAddresses_selects w s json data d Hr Hd Hf Ht).
        simpl. intros [<-|[]]. split.
        -- now apply find_some in Hf.
        -- destruct (_id d) as [i|]; [|discriminate]. now exists i.
      * rewrite (fetchAddresses_falsy_id w s json data d Hr Hd Hf Ht).
        simpl. tauto.
    + rewrite (fetchAddresses_no_flag w s json data Hr Hd Hf). simpl. tauto.
Qed.

Lemma fetchAddresses_default_needs_id_witness :
  selectedAddressId (final_state (fetchAddresses
                                    (constWorld (Resolved true (JsonObject (JArray idlessList))) true)
                                    initialState)) = None /\
  selected_calls (trace_of (fetchAddresses
                              (constWorld (Resolved true (JsonObject (JArray idlessList))) true)
                              initialState)) = [].
Proof.
  destruct (fetchAddresses_default_needs_id
              (constWorld (Resolved true (JsonObject (JArray idlessList))) true)
              initialState (JsonObject (JArray idlessList)) idlessList
              eq_refl eq_refl) as [Hno _].
  apply (Hno draftDefault); reflexivity.
Defined.

(** ** Selecting a card *)

Lemma card_onClick_run (a : Address) (s : State) :
  card_onClick a s =
    (Normal tt,
     mkState (addresses s) (loading s) (showForm s)
             (Some (or_empty (_id a))) (formData s) (submitting s),
     [EOnAddressSelected a]).
Proof. reflexivity. Qed.

(** C6, as stated, fails: clicking the card of a listed address that has no
    [_id] stores the empty string, which is not that address's id. *)
Lemma card_onClick_without_id_selects_empty_string :
  In draftDefault (addresses idlessShown) /\
  selectedAddressId (final_state (card_onClick draftDefault idlessShown))
    = Some "" /\
  selectedAddressId (final_state (card_onClick draftDefault idlessShown))
    <> _id draftDefault.
Proof.
  split; [|split].
  - simpl. tauto.
  - reflexivity.
  - discriminate.
Qed.

(** C6 (amended): for every address in [addresses] and every prior
    selection, clicking its card sets [selectedAddressId] to the address's id
    when it has one and to the empty string when it has none, invokes
    [onAddressSelected] once with the full address, and issues no network
    call; no other state cell changes. *)
Theorem card_onClick_selects (a : Address) (s : State) :
  In a (addresses s) ->
  (forall i, _id a = Some i ->
     selectedAddressId (final_state (card_onClick a s)) = Some i) /\
  (_id a = None ->
     selectedAddressId (final_state (card_onClick a s)) = Some "") /\
  selected_calls (trace_of (card_onClick a s)) = [a] /\
  api_calls (trace_of (card_onClick a s)) = [] /\
  addresses (final_state (card_onClick a s)) = addresses s /\
  showForm (final_state (card_onClick a s)) = showForm s /\
  formData (final_state (card_onClick a s)) = formData s.
Proof.
  intros _. rewrite card_onClick_run. simpl. repeat split.
  - intros i ->. simpl. destruct (truthy_string i) eqn:Ht; [reflexivity|].
    apply truthy_string_false in Ht. now subst.
  - now intros ->.
Qed.

Lemma card_onClick_selects_witness :
  selectedAddressId (final_state (card_onClick office listShown)) = Some "a2" /\
  selected_calls (trace_of (card_onClick office listShown)) = [office] /\
  api_calls (trace_of (card_onClick office listShown)) = [].
Proof.
  destruct (card_onClick_selects office listShown) as (Hid & _ & Hcb & Hapi & _).
  - simpl. tauto.
  - split; [apply Hid; reflexivity | split; assumption].
Defined.

(** ** Deleting an address *)

(** C7: for every confirmed delete whose response is ok with a list under
    [data], [addresses] is replaced by that list; if the deleted id is the
    current [selectedAddressId] the selection is cleared (and otherwise
    kept), and [onAddressSelected] is not invoked.  Declining the prompt
    issues no request and leaves the whole state unchanged. *)
Theorem handleDeleteAddress_contract w id s :
  (window_confirm w deletePrompt = true ->
   forall json data,
     api w (deleteRequest id) = Resolved true json ->
     opt_data json = JArray data ->
     addresses (final_state (handleDeleteAddress w id s)) = data /\
     (selectedAddressId s = Some id ->
        selectedAddressId (final_state (handleDeleteAddress w id s)) = None) /\
     (selectedAddressId s <> Some id ->
        selectedAddressId (final_state (handleDeleteAddress w id s))
          = selectedAddressId s) /\
     selected_calls (trace_of (handleDeleteAddress w id s)) = [] /\
     api_calls (trace_of (handleDeleteAddress w id s)) = [deleteRequest id]) /\
  (window_confirm w deletePrompt = false ->
     api_calls (trace_of (handleDeleteAddress w id s)) = [] /\
     final_state (handleDeleteAddress w id s) = s).
Proof.
  split.
  - intros Hc json data Hr Hd.
    rewrite (handleDeleteAddress_accepted w id s json data Hc Hr Hd). simpl.
    repeat split.
    + intros Hsel. apply option_string_eqb_true in Hsel. now rewrite Hsel.
    + intros Hsel.
      destruct (option_string_eqb (selectedAddressId s) id) eqn:He;
        [|reflexivity].
      apply option_string_eqb_true in He. contradiction.
  - intros Hc. rewrite (handleDeleteAddress_declined w id s Hc). simpl. auto.
Qed.

Lemma handleDeleteAddress_contract_witness :
  (addresses (final_state (handleDeleteAddress
                             (constWorld (Resolved true (JsonObject (JArray [office]))) true)
                             "a1" listShown)) = [office] /\
   selectedAddressId (final_state (handleDeleteAddress
                                     (constWorld (Resolved true (JsonObject (JArray [office]))) true)
                                     "a1" listShown)) = None /\
   selected_calls (trace_of (handleDeleteAddress
                               (constWorld (Resolved true (JsonObject (JArray [office]))) true)
                               "a1" listShown)) = []) /\
  (api_calls (trace_of (handleDeleteAddress
                          (constWorld (Resolved true (JsonObject (JArray [office]))) false)
                          "a1" listShown)) = [] /\
   final_state (handleDeleteAddress
                  (constWorld (Resolved true (JsonObject (JArray [office]))) false)
                  "a1" listShown) = listShown).
Proof.
  split.
  - destruct (handleDeleteAddress_contract
                (constWorld (Resolved true (JsonObject (JArray [office]))) true)
                "a1" listShown) as [Hyes _].
    destruct (Hyes eq_refl (JsonObject (JArray [office])) [office]
                   eq_refl eq_refl) as (Ha & Hclr & _ & Hcb & _).
    split; [exact Ha | split; [apply Hclr; reflexivity | exact Hcb]].
  - apply (handleDeleteAddress_contract
             (constWorld (Resolved true (JsonObject (JArray [office]))) false)
             "a1" listShown).
    reflexivity.
Defined.

(** ** Malformed responses *)

Lemma ok_malformed_inv (r : ApiResult) :
  ok_malformed r ->
  exists json, r = Resolved true json /\
               true && Array_isArray (opt_data json) = false.
Proof.
  destruct r as [[|] json|e]; simpl; try contradiction.
  intros H. now exists json.
Qed.

(** C8: a list, create or delete call whose response is ok but has no list
    under [data] is a no-op: [addresses], [selectedAddressId], [showForm] and
    [formData] are unchanged, no notification is shown and no callback is
    invoked. *)
Theorem malformed_response_is_noop w p id s :
  (ok_malformed (api w listRequest) ->
     same_content s (final_state (fetchAddresses w s)) /\
     no_effects (trace_of (fetchAddresses w s))) /\
  (all_required_filled (formData s) ->
   ok_malformed (api w (createRequest (formData s))) ->
     same_content s (final_state (handleAddAddress w p s)) /\
     no_effects (trace_of (handleAddAddress w p s))) /\
  (window_confirm w deletePrompt = true ->
   ok_malformed (api w (deleteRequest id)) ->
     same_content s (final_state (handleDeleteAddress w id s)) /\
     no_effects (trace_of (handleDeleteAddress w id s))).
Proof.
  split; [|split].
  - intros Hm. apply ok_malformed_inv in Hm. destruct Hm as (json & Hr & Hg).
    rewrite (fetchAddresses_skipped w s true json Hr Hg).
    unfold same_content, no_effects. simpl. auto 10.
  - intros Hv Hm. apply missing_required_false in Hv.
    apply ok_malformed_inv in Hm. destruct Hm as (json & Hr & Hg).
    rewrite (handleAddAddress_skipped w p s true json Hv Hr Hg).
    unfold same_content, no_effects. simpl. auto 10.
  - intros Hc Hm.
    apply ok_malformed_inv in Hm. destruct Hm as (json & Hr & Hg).
    rewrite (handleDeleteAddress_skipped w id s true json Hc Hr Hg).
    unfold same_content, no_effects. simpl. auto 10.
Qed.

Lemma malformed_response_is_noop_witness :
  (same_content formOpen
     (final_state (fetchAddresses
                     (constWorld (Resolved true (JsonObject JOther)) true)
                     formOpen)) /\
   no_effects (trace_of (fetchAddresses
                           (constWorld (Resolved true (JsonObject JOther)) true)
                           formOpen))) /\
  (same_content formOpen
     (final_state (handleAddAddress
                     (constWorld (Resolved true (JsonObject JOther)) true)
                     (mkProps true) formOpen)) /\
   no_effects (trace_of (handleAddAddress
                           (constWorld (Resolved true (JsonObject JOther)) true)
                           (mkProps true) formOpen))) /\
  (same_content formOpen
     (final_state (handleDeleteAddress
                     (constWorld (Resolved true (JsonObject JOther)) true)
                     "a2" formOpen)) /\
   no_effects (trace_of (handleDeleteAddress
                           (constWorld (Resolved true (JsonObject JOther)) true)
                           "a2" formOpen))).
Proof.
  destruct (malformed_response_is_noop
              (constWorld (Resolved true (JsonObject JOther)) true)
              (mkProps true) "a2" formOpen) as (Hlist & Hcreate & Hdelete).
  split; [|split].
  - apply Hlist. reflexivity.
  - apply Hcreate; [repeat split; discriminate | reflexivity].
  - apply Hdelete; reflexivity.
Defined.

(** ** Cancelling the form *)

Lemma cancel_onClick_run (s : State) :
  cancel_onClick s =
    (Normal tt,
     mkState (addresses s) (loading s) false (selectedAddressId s)
             (formData s) (submitting s),
     []).
Proof. reflexivity. Qed.

(** C9, as stated, fails: Cancel hides the form but the draft typed so far is
    still in [formData]. *)
Lemma cancel_onClick_keeps_draft :
  showForm (final_state (cancel_onClick formOpen)) = false /\
  formData (final_state (cancel_onClick formOpen)) = filledForm /\
  formData (final_state (cancel_onClick formOpen)) <> emptyForm.
Proof.
  split; [|split].
  - reflexivity.
  - reflexivity.
  - discriminate.
Qed.

(** C9 (amended): [formData] is reset to all-empty after a successful
    submission; the Cancel action only hides the form and leaves [formData],
    like every other state cell, as it was. *)
Theorem formData_reset_only_on_success w p s :
  (all_required_filled (formData s) ->
   forall json data,
     api w (createRequest (formData s)) = Resolved true json ->
     opt_data json = JArray data ->
     formData (final_state (handleAddAddress w p s)) = emptyForm) /\
  formData (final_state (cancel_onClick s)) = formData s /\
  showForm (final_state (cancel_onClick s)) = false /\
  addresses (final_state (cancel_onClick s)) = addresses s /\
  selectedAddressId (final_state (cancel_onClick s)) = selectedAddressId s /\
  trace_of (cancel_onClick s) = [].
Proof.
  split.
  - intros Hv json data Hr Hd. apply missing_required_false in Hv.
    now rewrite (handleAddAddress_accepted w p s json data Hv Hr Hd).
  - rewrite cancel_onClick_run. simpl. auto.
Qed.

Lemma formData_reset_only_on_success_witness :
  formData (final_state (handleAddAddress
                           (constWorld (Resolved true (JsonObject (JArray [office; home]))) true)
                           (mkProps false) formOpen)) = emptyForm /\
  formData (final_state (cancel_onClick formOpen)) = filledForm.
Proof.
  destruct (formData_reset_only_on_success
              (constWorld (Resolved true (JsonObject (JArray [office; home]))) true)
              (mkProps false) formOpen) as (Hok & Hcancel & _).
  split.
  - apply (Hok ltac:(repeat split; discriminate)
               (JsonObject (JArray [office; home])) [office; home]);
      reflexivity.
  - exact Hcancel.
Defined.

(** ** Case analysis on a run *)

Ltac fetch_cases w s :=
  let Hr := fresh "Hr" in
  let Hg := fresh "Hg" in
  let Hd := fresh "Hd" in
  let Hf := fresh "Hf" in
  let Ht := fresh "Ht" in
  let ok := fresh "ok" in
  let json := fresh "json" in
  let data := fresh "data" in
  let d := fresh "d" in
  let e := fresh "e" in
  destruct (api w listRequest) as [ok json|e] eqn:Hr;
  [ destruct (ok && Array_isArray (opt_data json)) eqn:Hg;
    [ apply andb_true_iff in Hg; destruct Hg as [-> Hg];
      destruct (opt_data json) as [| | |data] eqn:Hd; try discriminate;
      destruct (find is_default data) as [d|] eqn:Hf;
      [ destruct (truthy_opt_string (_id d)) eqn:Ht;
        [ rewrite (fetchAddresses_selects w s json data d Hr Hd Hf Ht)
        | rewrite (fetchAddresses_falsy_id w s json data d Hr Hd Hf Ht) ]
      | rewrite (fetchAddresses_no_flag w s json data Hr Hd Hf) ]
    | rewrite (fetchAddresses_skipped w s ok json Hr Hg) ]
  | rewrite (fetchAddresses_rejected w s e Hr) ].

Ltac add_cases w p s :=
  let Hv := fresh "Hv" in
  let Hr := fresh "Hr" in
  let Hg := fresh "Hg" in
  let Hd := fresh "Hd" in
  let ok := fresh "ok" in
  let json := fresh "json" in
  let data := fresh "data" in
  let e := fresh "e" in
  destruct (missing_required (formData s)) eqn:Hv;
  [ rewrite (handleAddAddress_invalid w p s Hv)
  | destruct (api w (createRequest (formData s))) as [ok json|e] eqn:Hr;
    [ destruct (ok && Array_isArray (opt_data json)) eqn:Hg;
      [ apply andb_true_iff in Hg; destruct Hg as [-> Hg];
        destruct (opt_data json) as [| | |data] eqn:Hd; try discriminate;
        rewrite (handleAddAddress_accepted w p s json data Hv Hr Hd)
      | rewrite (handleAddAddress_skipped w p s ok json Hv Hr Hg) ]
    | rewrite (handleAddAddress_rejected w p s e Hv Hr) ] ].

Ltac delete_cases w id s :=
  let Hc := fresh "Hc" in
  let Hr := fresh "Hr" in
  let Hg := fresh "Hg" in
  let Hd := fresh "Hd" in
  let ok := fresh "ok" in
  let json := fresh "json" in
  let data := fresh "data" in
  let e := fresh "e" in
  destruct (window_confirm w deletePrompt) eqn:Hc;
  [ destruct (api w (deleteRequest id)) as [ok json|e] eqn:Hr;
    [ destruct (ok && Array_isArray (opt_data json)) eqn:Hg;
      [ apply andb_true_iff in Hg; destruct Hg as [-> Hg];
        destruct (opt_data json) as [| | |data] eqn:Hd; try discriminate;
        rewrite (handleDeleteAddress_accepted w id s json data Hc Hr Hd)
      | rewrite (handleDeleteAddress_skipped w id s ok json Hc Hr Hg) ]
    | rewrite (handleDeleteAddress_rejected w id s e Hc Hr) ]
  | rewrite (handleDeleteAddress_declined w id s Hc) ].

(** ** The load, in every case *)

(** Whatever the helper answers, [fetchAddresses] returns normally, issues
    exactly one request (the list call, without options), ends with
    [loading] false, and leaves [showForm], [formData] and [submitting]
    alone. *)
Theorem fetchAddresses_always_settles w s :
  fst (fst (fetchAddresses w s)) = Normal tt /\
  api_calls (trace_of (fetchAddresses w s))
    = [mkRequest "/api/auth/addresses" None] /\
  loading (final_state (fetchAddresses w s)) = false /\
  showForm (final_state (fetchAddresses w s)) = showForm s /\
  formData (final_state (fetchAddresses w s)) = formData s /\
  submitting (final_state (fetchAddresses w s)) = submitting s /\
  toasts (trace_of (fetchAddresses w s)) = [].
Proof.
  fetch_cases w s; simpl; auto 10.
Qed.

(** A failed load (thrown error or non-ok response) is swallowed: no
    notification, no callback, no state change besides [loading] going
    false; a thrown error is logged to the console, a non-ok response is
    not. *)
Theorem fetchAddresses_failure_is_swallowed w s :
  call_failed (api w listRequest) ->
  final_state (fetchAddresses w s) = loading_cleared s /\
  toasts (trace_of (fetchAddresses w s)) = [] /\
  selected_calls (trace_of (fetchAddresses w s)) = [] /\
  (forall e, api w listRequest = Rejected e ->
     trace_of (fetchAddresses w s)
       = [EApi listRequest; EConsoleError "Failed to fetch addresses:" e]) /\
  (forall ok json, api w listRequest = Resolved ok json ->
     trace_of (fetchAddresses w s) = [EApi listRequest]).
Proof.
  intros Hf.
  destruct (api w listRequest) as [ok json|e] eqn:Hr.
  - simpl in Hf. subst ok.
    rewrite (fetchAddresses_skipped w s false json Hr eq_refl). simpl.
    repeat split; discriminate.
  - rewrite (fetchAddresses_rejected w s e Hr). simpl.
    repeat split; try discriminate. intros e' He. now inversion He.
Qed.

Lemma fetchAddresses_failure_is_swallowed_witness :
  final_state (fetchAddresses (constWorld (Rejected "offline") true) listShown)
    = loading_cleared listShown /\
  toasts (trace_of (fetchAddresses (constWorld (Rejected "offline") true)
                                   listShown)) = [].
Proof.
  destruct (fetchAddresses_failure_is_swallowed
              (constWorld (Rejected "offline") true) listShown)
    as (Hs & Ht & _).
  - exact I.
  - split; assumption.
Defined.

Lemma find_first_flagged {A} (f : A -> bool) (pre post : list A) (d : A) :
  forallb (fun a => negb (f a)) pre = true ->
  f d = true ->
  find f (pre ++ d :: post) = Some d.
Proof.
  intros Hpre Hd. induction pre as [|x pre IH]; simpl in *.
  - now rewrite Hd.
  - apply andb_true_iff in Hpre. destruct Hpre as [Hx Hpre].
    apply negb_true_iff in Hx. rewrite Hx. now apply IH.
Qed.

(** Only the first default-flagged element of the loaded list counts: it is
    selected when its [_id] is truthy, and when it is not, nothing is
    selected, whatever flagged elements follow it. *)
Theorem fetchAddresses_first_flagged_decides w s json pre d post :
  api w listRequest = Resolved true json ->
  opt_data json = JArray (pre ++ d :: post) ->
  forallb (fun a => negb (is_default a)) pre = true ->
  is_default d = true ->
  (truthy_opt_string (_id d) = true ->
     selectedAddressId (final_state (fetchAddresses w s)) = _id d /\
     selected_calls (trace_of (fetchAddresses w s)) = [d]) /\
  (truthy_opt_string (_id d) = false ->
     selectedAddressId (final_state (fetchAddresses w s))
       = selectedAddressId s /\
     selected_calls (trace_of (fetchAddresses w s)) = []).
Proof.
  intros Hr Hd Hpre Hflag.
  pose proof (find_first_flagged is_default pre post d Hpre Hflag) as Hf.
  split; intros Ht.
  - now rewrite (fetchAddresses_selects w s json _ d Hr Hd Hf Ht).
  - now rewrite (fetchAddresses_falsy_id w s json _ d Hr Hd Hf Ht).
Qed.

Lemma fetchAddresses_first_flagged_decides_witness :
  selectedAddressId
    (final_state (fetchAddresses
                    (constWorld (Resolved true (JsonObject (JArray [office; draftDefault; home]))) true)
                    initialState)) = None /\
  selected_calls
    (trace_of (fetchAddresses
                 (constWorld (Resolved true (JsonObject (JArray [office; draftDefault; home]))) true)
                 initialState)) = [].
Proof.
  destruct (fetchAddresses_first_flagged_decides
              (constWorld (Resolved true (JsonObject (JArray [office; draftDefault; home]))) true)
              initialState
              (JsonObject (JArray [office; draftDefault; home]))
              [office] draftDefault [home] eq_refl eq_refl eq_refl eq_refl)
    as (_ & Hskip).
  apply Hskip. reflexivity.
Defined.

(** After the load run at mount, the selection, when set, is the id of a
    listed address: the default-flagged one that was handed to
    [onAddressSelected]. *)
Theorem mount_selection_valid w :
  selection_valid (final_state (mount w)) /\
  (forall i,
     selectedAddressId (final_state (mount w)) = Some i ->
     exists a, selected_calls (trace_of (mount w)) = [a] /\
               In a (addresses (final_state (mount w))) /\
               _id a = Some i /\ is_default a = true).
Proof.
  assert (H : forall i,
     selectedAddressId (final_state (mount w)) = Some i ->
     exists a, selected_calls (trace_of (mount w)) = [a] /\
               In a (addresses (final_state (mount w))) /\
               _id a = Some i /\ is_default a = true).
  { unfold mount. fetch_cases w initialState; simpl; try discriminate.
    intros i Hi. exists d. apply find_some in Hf. tauto. }
  split; [|exact H].
  intros i Hi. destruct (H i Hi) as (a & _ & Hin & Hid & _). now exists a.
Qed.

(** When the load run at mount fails, or answers ok without a list, the
    screen shows neither cards nor form, only the "Add New Address" button,
    and no notification has been shown. *)
Theorem mount_failure_view w :
  call_failed (api w listRequest) \/ ok_malformed (api w listRequest) ->
  render (final_state (mount w)) = Screen None None /\
  toasts (trace_of (mount w)) = [].
Proof.
  intros H. unfold mount.
  destruct (api w listRequest) as [ok json|e] eqn:Hr.
  - assert (Hg : ok && Array_isArray (opt_data json) = false).
    { destruct H as [H|H]; simpl in H.
      - now subst ok.
      - destruct ok; [now rewrite H | reflexivity]. }
    now rewrite (fetchAddresses_skipped w initialState ok json Hr Hg).
  - now rewrite (fetchAddresses_rejected w initialState e Hr).
Qed.

Lemma mount_failure_view_witness :
  render (final_state (mount (constWorld (Resolved false JsonNullish) true)))
    = Screen None None /\
  toasts (trace_of (mount (constWorld (Resolved false JsonNullish) true))) = [].
Proof.
  apply (mount_failure_view (constWorld (Resolved false JsonNullish) true)).
  left. reflexivity.
Defined.

(** ** The submission, in every case *)

(** Whatever the draft and the helper's answer, [handleAddAddress] returns
    normally, calls the helper at most once, never calls
    [onAddressSelected] and never touches [selectedAddressId] or [loading];
    [submitting] ends false whenever the guard let the submission through
    and is untouched otherwise. *)
Theorem handleAddAddress_frame w p s :
  fst (fst (handleAddAddress w p s)) = Normal tt /\
  length (api_calls (trace_of (handleAddAddress w p s))) <= 1 /\
  selected_calls (trace_of (handleAddAddress w p s)) = [] /\
  selectedAddressId (final_state (handleAddAddress w p s))
    = selectedAddressId s /\
  loading (final_state (handleAddAddress w p s)) = loading s /\
  submitting (final_state (handleAddAddress w p s))
    = (if missing_required (formData s) then submitting s else false).
Proof.
  add_cases w p s; simpl; try (destruct (onAddressCreated p)); simpl;
    auto 10.
Qed.

(** [onAddressCreated] is called at most once, and exactly once precisely
    when it was supplied, the draft passed the guard and the helper resolved
    ok with a list under [data]. *)
Theorem onAddressCreated_iff_success w p s :
  created_calls (trace_of (handleAddAddress w p s)) <= 1 /\
  (created_calls (trace_of (handleAddAddress w p s)) = 1 <->
   onAddressCreated p = true /\
   missing_required (formData s) = false /\
   exists json data,
     api w (createRequest (formData s)) = Resolved true json /\
     opt_data json = JArray data).
Proof.
  add_cases w p s; unfold created_calls; simpl.
  - split; [lia|]. split; [discriminate | intros (_ & H & _); discriminate].
  - destruct (onAddressCreated p); simpl.
    + split; [lia|]. split; [|reflexivity].
      intros _. repeat split. now exists json, data.
    + split; [lia|]. split; [discriminate | intros (H & _); discriminate].
  - split; [lia|]. split; [discriminate|].
    intros (_ & _ & j & l & Hj & Hl). inversion Hj; subst.
    rewrite Hl in Hg. discriminate.
  - split; [lia|]. split; [discriminate|].
    intros (_ & _ & j & l & Hj & _). discriminate.
Qed.

(** ** The deletion, in every case *)

(** The helper is called exactly when the prompt was confirmed. *)
Lemma handleDeleteAddress_calls w id s :
  api_calls (trace_of (handleDeleteAddress w id s))
    = (if window_confirm w deletePrompt then [deleteRequest id] else []).
Proof.
  delete_cases w id s; reflexivity.
Qed.

(** A confirmed delete whose call fails leaves the whole state as it was; a
    thrown error is logged and shows the error notification, a non-ok
    response shows nothing. *)
Theorem handleDeleteAddress_failure w id s :
  window_confirm w deletePrompt = true ->
  call_failed (api w (deleteRequest id)) ->
  final_state (handleDeleteAddress w id s) = s /\
  (forall e, api w (deleteRequest id) = Rejected e ->
     trace_of (handleDeleteAddress w id s)
       = [EConfirm deletePrompt; EApi (deleteRequest id);
          EConsoleError "Failed to delete address:" e;
          EToast (mkToast "Error" "Failed to delete address"
                          (Some "destructive"))]) /\
  (forall ok json, api w (deleteRequest id) = Resolved ok json ->
     toasts (trace_of (handleDeleteAddress w id s)) = []).
Proof.
  intros Hc Hf.
  destruct (api w (deleteRequest id)) as [ok json|e] eqn:Hr.
  - simpl in Hf. subst ok.
    rewrite (handleDeleteAddress_skipped w id s false json Hc Hr eq_refl).
    simpl. repeat split; discriminate.
  - rewrite (handleDeleteAddress_rejected w id s e Hc Hr). simpl.
    repeat split; try discriminate. intros e' He. now inversion He.
Qed.

Lemma handleDeleteAddress_failure_witness :
  final_state (handleDeleteAddress (constWorld (Rejected "offline") true)
                                   "a1" listShown) = listShown /\
  toasts (trace_of (handleDeleteAddress (constWorld (Rejected "offline") true)
                                        "a1" listShown))
    = [deleteFailedToast].
Proof.
  destruct (handleDeleteAddress_failure (constWorld (Rejected "offline") true)
                                        "a1" listShown eq_refl I)
    as (Hs & Ht & _).
  split; [exact Hs|]. now rewrite (Ht "offline" eq_refl).
Defined.

(** Whatever the answers, [handleDeleteAddress] returns normally, asks for
    confirmation first, calls the helper exactly when the prompt was
    confirmed, never invokes a callback, never selects anything (the
    selection is kept or cleared) and leaves the form and the busy flags
    alone. *)
Theorem handleDeleteAddress_frame w id s :
  fst (fst (handleDeleteAddress w id s)) = Normal tt /\
  hd_error (trace_of (handleDeleteAddress w id s))
    = Some (EConfirm deletePrompt) /\
  api_calls (trace_of (handleDeleteAddress w id s))
    = (if window_confirm w deletePrompt then [deleteRequest id] else []) /\
  selected_calls (trace_of (handleDeleteAddress w id s)) = [] /\
  created_calls (trace_of (handleDeleteAddress w id s)) = 0 /\
  (selectedAddressId (final_state (handleDeleteAddress w id s))
     = selectedAddressId s \/
   selectedAddressId (final_state (handleDeleteAddress w id s)) = None) /\
  showForm (final_state (handleDeleteAddress w id s)) = showForm s /\
  formData (final_state (handleDeleteAddress w id s)) = formData s /\
  loading (final_state (handleDeleteAddress w id s)) = loading s /\
  submitting (final_state (handleDeleteAddress w id s)) = submitting s.
Proof.
  delete_cases w id s; simpl; repeat split; auto.
  destruct (option_string_eqb (selectedAddressId s) id); auto.
Qed.

(** The delete button of a card sends DELETE to the collection path
    followed by the card's id; for a card whose [_id] is absent or empty the
    path is the bare collection path with a trailing slash. *)
Theorem deleteButton_onClick_request w a s :
  window_confirm w deletePrompt = true ->
  (forall i, _id a = Some i ->
     api_calls (trace_of (deleteButton_onClick w a s))
       = [mkRequest ("/api/auth/addresses/" ++ i)%string
                    (Some (mkInit "DELETE" None))]) /\
  (truthy_opt_string (_id a) = false ->
     api_calls (trace_of (deleteButton_onClick w a s))
       = [mkRequest "/api/auth/addresses/" (Some (mkInit "DELETE" None))]).
Proof.
  intros Hc.
  assert (H : api_calls (trace_of (deleteButton_onClick w a s))
              = [deleteRequest (or_empty (_id a))]).
  { unfold deleteButton_onClick.
    now rewrite handleDeleteAddress_calls, Hc. }
  split.
  - intros i Hi. rewrite H, Hi. simpl.
    destruct (truthy_string i) eqn:Ht; [reflexivity|].
    apply truthy_string_false in Ht. now subst.
  - intros Ht. rewrite H. destruct (_id a) as [i|]; simpl in *.
    + now rewrite Ht.
    + reflexivity.
Qed.

Lemma deleteButton_onClick_request_witness :
  api_calls (trace_of (deleteButton_onClick
                         (constWorld (Resolved false JsonNullish) true)
                         draftDefault idlessShown))
    = [mkRequest "/api/auth/addresses/" (Some (mkInit "DELETE" None))].
Proof.
  destruct (deleteButton_onClick_request
              (constWorld (Resolved false JsonNullish) true)
              draftDefault idlessShown eq_refl) as (_ & Hbare).
  apply Hbare. reflexivity.
Defined.

(** ** Editing the draft *)

Lemma Field_eqb_eq (f g : Field) : Field_eqb f g = true <-> f = g.
Proof. destruct f, g; simpl; split; congruence. Qed.

(** Running an edit and then [k] is running [k] from the edited state. *)
Lemma input_onChange_then {A} (f : Field) (v : string) (k : M A) (s : State) :
  (input_onChange f v ;; k) s = k (typed f v s).
Proof.
  unfold typed, bind, input_onChange, get_state, setFormData at 1. simpl.
  destruct (k _) as [[r s2] t2]. reflexivity.
Qed.

(** Typing into one input changes the value shown by that input and by no
    other; the draft keeps its [_id] and [isDefault], every other state cell
    is untouched and nothing leaves the component. *)
Theorem input_onChange_sets_only_its_field (f g : Field) (v : string) (s : State) :
  input_value g (formData (typed f v s))
    = (if Field_eqb f g then Some v else input_value g (formData s)) /\
  _id (formData (typed f v s)) = _id (formData s) /\
  isDefault (formData (typed f v s)) = isDefault (formData s) /\
  addresses (typed f v s) = addresses s /\
  selectedAddressId (typed f v s) = selectedAddressId s /\
  showForm (typed f v s) = showForm s /\
  loading (typed f v s) = loading s /\
  submitting (typed f v s) = submitting s /\
  trace_of (input_onChange f v s) = [].
Proof.
  split; [destruct f, g; reflexivity | destruct f; repeat split].
Qed.

(** Edits of two different inputs can be made in either order, and of two
    edits of the same input the later one wins. *)
Theorem input_onChange_order (f g : Field) (v u : string) (s : State) :
  (f <> g -> typed g u (typed f v s) = typed f v (typed g u s)) /\
  typed f u (typed f v s) = typed f u s.
Proof.
  split.
  - intros Hne. destruct f, g; try contradiction; reflexivity.
  - destruct f; reflexivity.
Qed.

Lemma input_onChange_order_witness :
  typed FCity "Pune" (typed FName "Asha Rao" listShown)
    = typed FName "Asha Rao" (typed FCity "Pune" listShown).
Proof.
  apply (input_onChange_order FName FCity "Asha Rao" "Pune" listShown).
  discriminate.
Defined.

(** How an edit moves the draft across the guard of the submission:
    emptying a required input makes the draft fail it; typing a non-empty
    value keeps a passing draft passing; the landmark input never matters. *)
Theorem input_onChange_and_guard (f : Field) (v : string) (s : State) :
  (required f = true ->
     missing_required (formData (typed f "" s)) = true) /\
  (v <> "" -> missing_required (formData s) = false ->
     missing_required (formData (typed f v s)) = false) /\
  missing_required (formData (typed FLandmark v s))
    = missing_required (formData s).
Proof.
  split; [|split].
  - intros Hreq. destruct f; try discriminate;
      unfold typed, missing_required; simpl;
      rewrite ?orb_true_r; reflexivity.
  - intros Hv Hok. apply truthy_string_true in Hv.
    unfold missing_required in *.
    rewrite !orb_false_iff, !negb_false_iff in Hok.
    destruct Hok as ((((((H1 & H2) & H3) & H4) & H5) & H6) & H7).
    destruct f; unfold typed; simpl;
      rewrite ?Hv, ?H1, ?H2, ?H3, ?H4, ?H5, ?H6, ?H7; reflexivity.
  - reflexivity.
Qed.

Lemma input_onChange_and_guard_witness :
  missing_required (formData (typed FPincode "" formOpen)) = true /\
  missing_required (formData (typed FPincode "411002" formOpen)) = false.
Proof.
  split.
  - destruct (input_onChange_and_guard FPincode "" formOpen) as (Hclear & _).
    apply Hclear. reflexivity.
  - destruct (input_onChange_and_guard FPincode "411002" formOpen)
      as (_ & Hkeep & _).
    apply Hkeep; [discriminate | reflexivity].
Defined.

(** Emptying a required input and pressing Save sends nothing: the warning
    is shown and the state is the edited one. *)
Theorem clear_then_save_is_rejected w p (f : Field) (s : State) :
  required f = true ->
  (input_onChange f "" ;; save_onClick w p) s
    = (Normal tt, typed f "" s, [EToast missingFieldsToast]).
Proof.
  intros Hreq. rewrite input_onChange_then. unfold save_onClick.
  apply handleAddAddress_invalid.
  destruct f; try discriminate;
    unfold typed, missing_required; simpl; rewrite ?orb_true_r; reflexivity.
Qed.

Lemma clear_then_save_is_rejected_witness :
  (input_onChange FPhone "" ;;
   save_onClick (constWorld (Resolved true JsonNullish) true) (mkProps true))
    formOpen
    = (Normal tt, typed FPhone "" formOpen, [EToast missingFieldsToast]).
Proof.
  apply (clear_then_save_is_rejected
           (constWorld (Resolved true JsonNullish) true) (mkProps true)
           FPhone formOpen).
  reflexivity.
Defined.

(** Typing non-empty values into the seven required inputs, anything into
    the landmark input, and pressing Save sends exactly one request: a POST
    whose body is the draft holding exactly the typed values. *)
Theorem fill_then_save_posts_typed_values
        w p s (n ph h a c st pc lm : string) :
  n <> "" -> ph <> "" -> h <> "" -> a <> "" -> c <> "" -> st <> "" ->
  pc <> "" ->
  api_calls
    (trace_of
       ((input_onChange FName n ;; input_onChange FPhone ph ;;
         input_onChange FHouseNumber h ;; input_onChange FArea a ;;
         input_onChange FCity c ;; input_onChange FState st ;;
         input_onChange FPincode pc ;; input_onChange FLandmark lm ;;
         save_onClick w p) s))
    = [mkRequest "/api/auth/addresses"
         (Some (mkInit "POST"
            (Some (JSON_stringify
                     (mkAddress (_id (formData s)) n ph h a c st pc
                                (Some lm) (isDefault (formData s)))))))].
Proof.
  intros Hn Hph Hh Ha Hc Hst Hpc.
  rewrite !input_onChange_then. unfold save_onClick.
  rewrite handleAddAddress_one_request; [reflexivity|].
  apply missing_required_false. unfold typed; simpl. repeat split; assumption.
Qed.

Lemma fill_then_save_posts_typed_values_witness :
  api_calls
    (trace_of
       ((input_onChange FName "Asha Rao" ;; input_onChange FPhone "9999999999" ;;
         input_onChange FHouseNumber "12" ;; input_onChange FArea "MG Road" ;;
         input_onChange FCity "Pune" ;; input_onChange FState "MH" ;;
         input_onChange FPincode "411001" ;; input_onChange FLandmark "" ;;
         save_onClick (constWorld (Resolved false JsonNullish) true)
                      (mkProps true)) initialState))
    = [createRequest filledForm].
Proof.
  apply (fill_then_save_posts_typed_values
           (constWorld (Resolved false JsonNullish) true) (mkProps true)
           initialState "Asha Rao" "9999999999" "12" "MG Road" "Pune" "MH"
           "411001" ""); discriminate.
Defined.

(** ** Showing and hiding the form *)

(** The two toggles write [showForm] and nothing else, and emit nothing:
    hiding the form and showing it again brings back the draft as it was
    typed. *)
Theorem form_toggle_keeps_draft (s : State) :
  (cancel_onClick ;; addNew_onClick) s
    = (Normal tt,
       mkState (addresses s) (loading s) true (selectedAddressId s)
               (formData s) (submitting s), []) /\
  (addNew_onClick ;; cancel_onClick) s
    = (Normal tt,
       mkState (addresses s) (loading s) false (selectedAddressId s)
               (formData s) (submitting s), []).
Proof. split; reflexivity. Qed.

(** ** What the screen shows *)

Lemma strict_eq_id_true (sel id : option string) :
  strict_eq_id sel id = true <-> exists x, sel = Some x /\ id = Some x.
Proof.
  destruct sel as [x|], id as [y|]; simpl.
  - rewrite String.eqb_eq. split.
    + intros ->. now exists y.
    + intros (z & Hx & Hy). congruence.
  - split; [discriminate | intros (z & _ & H); discriminate].
  - split; [discriminate | intros (z & H & _); discriminate].
  - split; [discriminate | intros (z & H & _); discriminate].
Qed.

Lemma highlighted_render (s : State) :
  highlighted (render s)
    = if loading s then []
      else filter card_check (map (cardView s) (addresses s)).
Proof.
  unfold highlighted, render. destruct (loading s); [reflexivity|].
  destruct (addresses s); reflexivity.
Qed.

Lemma no_check_no_highlight (s : State) (l : list Address) :
  (forall b, In b l -> card_check (cardView s b) = false) ->
  filter card_check (map (cardView s) l) = [].
Proof.
  induction l as [|b l IH]; intros H; cbn [map filter]; [reflexivity|].
  rewrite (H b (or_introl eq_refl)). apply IH.
  intros c Hc. apply H. now right.
Qed.

Lemma at_most_one_check (s : State) (l : list Address) :
  NoDup (map _id l) ->
  length (filter card_check (map (cardView s) l)) <= 1.
Proof.
  induction l as [|a l IH]; intros Hnd; simpl; [lia|].
  inversion Hnd as [|x xs Hnotin Hnd']; subst.
  destruct (strict_eq_id (selectedAddressId s) (_id a)) eqn:Ha.
  - rewrite no_check_no_highlight; [simpl; lia|].
    intros b Hb. simpl.
    destruct (strict_eq_id (selectedAddressId s) (_id b)) eqn:Hb';
      [|reflexivity].
    apply strict_eq_id_true in Ha. destruct Ha as (x & Hx & Hax).
    apply strict_eq_id_true in Hb'. destruct Hb' as (y & Hy & Hby).
    exfalso. apply Hnotin. rewrite Hax. apply in_map_iff.
    exists b. split; [congruence | assumption].
  - now apply IH.
Qed.

(** When the listed addresses have pairwise different [_id]s (an absent
    [_id] counting as one value), at most one card is drawn as selected. *)
Theorem at_most_one_card_highlighted (s : State) :
  NoDup (map _id (addresses s)) ->
  length (highlighted (render s)) <= 1.
Proof.
  intros Hnd. rewrite highlighted_render.
  destruct (loading s); [simpl; lia | now apply at_most_one_check].
Qed.

Lemma at_most_one_card_highlighted_witness :
  length (highlighted (render listShown)) <= 1.
Proof.
  apply (at_most_one_card_highlighted listShown).
  repeat constructor; simpl; intuition discriminate.
Defined.

(** After a click on the card of [a], the cards drawn as selected are
    exactly those whose [_id] is the stored one, [a._id || '']; the clicked
    card itself is drawn as selected if and only if it has an [_id]. *)
Theorem card_onClick_highlights (a b : Address) (s : State) :
  (card_check (cardView (final_state (card_onClick a s)) b) = true <->
   _id b = Some (or_empty (_id a))) /\
  (card_check (cardView (final_state (card_onClick a s)) a) = true <->
   exists i, _id a = Some i).
Proof.
  rewrite card_onClick_run. unfold final_state, cardView.
  cbn [fst snd card_check selectedAddressId]. split.
  - rewrite strict_eq_id_true. split.
    + intros (x & Hx & Hb). congruence.
    + intros Hb. eauto.
  - rewrite strict_eq_id_true. split.
    + intros (x & _ & Ha). eauto.
    + intros (i & Hi). exists i. split; [|assumption].
      rewrite Hi. simpl. destruct (truthy_string i) eqn:Ht; [reflexivity|].
      apply truthy_string_false in Ht. now subst.
Qed.

(** The address handed to [onAddressSelected] by the load run at mount is
    drawn as selected on the screen that follows. *)
Theorem mount_default_is_highlighted w (d : Address) :
  In d (selected_calls (trace_of (mount w))) ->
  In (cardView (final_state (mount w)) d)
     (highlighted (render (final_state (mount w)))).
Proof.
  unfold mount. fetch_cases w initialState; simpl; try tauto.
  intros [<-|[]]. rewrite highlighted_render. simpl.
  apply filter_In. split.
  - apply in_map. now apply find_some in Hf.
  - simpl. apply strict_eq_id_true.
    destruct (_id d0) as [i|]; [|discriminate]. now exists i.
Qed.

Lemma mount_default_is_highlighted_witness :
  In (cardView (final_state (mount (constWorld (Resolved true (JsonObject (JArray [office; home]))) true))) home)
     (highlighted (render (final_state (mount (constWorld (Resolved true (JsonObject (JArray [office; home]))) true))))).
Proof.
  apply (mount_default_is_highlighted
           (constWorld (Resolved true (JsonObject (JArray [office; home]))) true)
           home).
  simpl. tauto.
Defined.

(** After a confirmed, successful delete of the selected address no card is
    drawn as selected, whatever list the server returned. *)
Theorem delete_selected_clears_highlight w id s json data :
  window_confirm w deletePrompt = true ->
  api w (deleteRequest id) = Resolved true json ->
  opt_data json = JArray data ->
  selectedAddressId s = Some id ->
  highlighted (render (final_state (handleDeleteAddress w id s))) = [].
Proof.
  intros Hc Hr Hd Hsel.
  rewrite (handleDeleteAddress_accepted w id s json data Hc Hr Hd).
  apply option_string_eqb_true in Hsel. rewrite Hsel.
  rewrite highlighted_render. simpl.
  destruct (loading s); [reflexivity|].
  now apply no_check_no_highlight.
Qed.

Lemma delete_selected_clears_highlight_witness :
  highlighted (render (final_state (handleDeleteAddress
                                      (constWorld (Resolved true (JsonObject (JArray [home; office]))) true)
                                      "a1" listShown))) = [].
Proof.
  apply (delete_selected_clears_highlight
           (constWorld (Resolved true (JsonObject (JArray [home; office]))) true)
           "a1" listShown (JsonObject (JArray [home; office])) [home; office]);
    reflexivity.
Defined.

(** After a failed submission (non-ok response or thrown error) the screen
    still shows the form, holding the draft as typed, with the Save button
    enabled and labelled "Save Address"; the cards are those shown before. *)
Theorem failed_submit_view w p s :
  all_required_filled (formData s) ->
  showForm s = true ->
  loading s = false ->
  call_failed (api w (createRequest (formData s))) ->
  exists cards,
    render (final_state (handleAddAddress w p s))
      = Screen cards (Some (mkFormView (formData s) false "Save Address")) /\
    cards_of (render (final_state (handleAddAddress w p s)))
      = cards_of (render s).
Proof.
  intros Hv Hshow Hload Hf. apply missing_required_false in Hv.
  assert (Hs : final_state (handleAddAddress w p s) = submitting_cleared s).
  { destruct (api w (createRequest (formData s))) as [ok json|e] eqn:Hr.
    - simpl in Hf. subst ok.
      now rewrite (handleAddAddress_skipped w p s false json Hv Hr eq_refl).
    - now rewrite (handleAddAddress_rejected w p s e Hv Hr). }
  rewrite Hs. unfold render, submitting_cleared, formView. simpl.
  rewrite Hload, Hshow. eexists. split; reflexivity.
Qed.

Lemma failed_submit_view_witness :
  exists cards,
    render (final_state (handleAddAddress
                           (constWorld (Rejected "offline") true)
                           (mkProps true) formOpen))
      = Screen cards (Some (mkFormView filledForm false "Save Address")) /\
    cards_of (render (final_state (handleAddAddress
                                     (constWorld (Rejected "offline") true)
                                     (mkProps true) formOpen)))
      = cards_of (render formOpen).
Proof.
  apply (failed_submit_view (constWorld (Rejected "offline") true)
                            (mkProps true) formOpen).
  - repeat split; discriminate.
  - reflexivity.
  - reflexivity.
  - exact I.
Defined.

(** After a successful submission the screen shows one card per element of
    the server's list, in the server's order, and the "Add New Address"
    button instead of the form; the selection is the one held before. *)
Theorem successful_submit_view w p s json data :
  all_required_filled (formData s) ->
  loading s = false ->
  api w (createRequest (formData s)) = Resolved true json ->
  opt_data json = JArray data ->
  render (final_state (handleAddAddress w p s))
    = Screen (match data with
              | [] => None
              | _ => Some (map (cardView s) data)
              end) None.
Proof.
  intros Hv Hload Hr Hd. apply missing_required_false in Hv.
  rewrite (handleAddAddress_accepted w p s json data Hv Hr Hd).
  unfold render. simpl. rewrite Hload. destruct data; reflexivity.
Qed.

Lemma successful_submit_view_witness :
  render (final_state (handleAddAddress
                         (constWorld (Resolved true (JsonObject (JArray [office; home]))) true)
                         (mkProps true) formOpen))
    = Screen (Some (map (cardView formOpen) [office; home])) None.
Proof.
  apply (successful_submit_view
           (constWorld (Resolved true (JsonObject (JArray [office; home]))) true)
           (mkProps true) formOpen (JsonObject (JArray [office; home]))
           [office; home]).
  - repeat split; discriminate.
  - reflexivity.
  - reflexivity.
  - reflexivity.
Defined.
